(** * rs-result: Option and Result containers

    A shallow embedding of [src/rs-result/__init__.py].  Every method of the
    two classes is a computation in a small state-and-exception monad whose
    state is the receiver ([self]); an exception leaves the receiver as the
    method had mutated it up to the raise, as in Python. *)

From Stdlib Require Import ZArith String List.
Import ListNotations.
Local Open Scope string_scope.
Local Open Scope Z_scope.

(** ** Python values and exceptions *)

(** The payloads the containers carry.  [PyNone] is Python's [None], the
    absence marker of [Option]. *)
Inductive pyobj : Type :=
| PyNone
| PyBool (b : bool)
| PyInt (n : Z)
| PyStr (s : string).

(** [x is None] *)
Definition is_None (x : pyobj) : bool :=
  match x with
  | PyNone => true
  | _ => false
  end.

(** The exceptions the module can raise: [Exception(arg)] from its own
    [raise] statements, [TypeError] from the interpreter, and
    [StopIteration] from an exhausted generator. *)
Inductive exn : Type :=
| Exception (arg : pyobj)
| TypeError (msg : string)
| StopIteration.

Inductive outcome (A : Type) : Type :=
| Return (a : A)
| Raise (e : exn).
Arguments Return {A} a.
Arguments Raise {A} e.

Definition returns {A : Type} (r : outcome A) : bool :=
  match r with
  | Return _ => true
  | Raise _ => false
  end.

(** ** The method monad: receiver state plus exceptions *)

Definition M (S A : Type) : Type := S -> outcome A * S.

Definition ret {S A : Type} (a : A) : M S A := fun self => (Return a, self).

Definition raise {S A : Type} (e : exn) : M S A := fun self => (Raise e, self).

Definition bind {S A B : Type} (m : M S A) (k : A -> M S B) : M S B :=
  fun self =>
    match m self with
    | (Return a, self') => k a self'
    | (Raise e, self') => (Raise e, self')
    end.

(** A callee that cannot touch the receiver (a caller-supplied function, a
    call on a cell) runs as an [outcome]. *)
Definition lift {S A : Type} (r : outcome A) : M S A := fun self => (r, self).

Declare Scope py_scope.
Delimit Scope py_scope with py.
Notation "x <- m ;; k" := (bind m (fun x => k))
  (at level 61, m at next level, right associativity) : py_scope.
Notation "m ;; k" := (bind m (fun _ => k))
  (at level 61, right associativity) : py_scope.
Local Open Scope py_scope.

(** ** class Option *)

(** [__slots__ = ("_value",)] *)
Record Option : Type := mkOption { _value : pyobj }.

(** [self._value] and [self._value = v] *)
Definition get_value : M Option pyobj := fun self => (Return (_value self), self).
Definition set_value (v : pyobj) : M Option unit := fun _ => (Return tt, mkOption v).

(** [Some(value)] and [Null()]: both factories return [Option(value)];
    subscripting them ([Some[T]], [Null[T]]) does not change the call. *)
Definition Some (value : pyobj) : Option := mkOption value.
Definition Null : Option := mkOption PyNone.

Module OptionM.

Definition is_some : M Option bool :=
  v <- get_value ;; ret (negb (is_None v)).

Definition is_null : M Option bool :=
  v <- get_value ;; ret (is_None v).

Definition unwrap : M Option pyobj :=
  b <- is_some ;;
  if b then
    value <- get_value ;;
    set_value PyNone ;;
    ret value
  else raise (Exception (PyStr "Called unwrap on a null value")).

Definition unwrap_or (default : pyobj) : M Option pyobj :=
  b <- is_some ;;
  if b then
    value <- get_value ;;
    set_value PyNone ;;
    ret value
  else ret default.

Definition unwrap_or_else (default : unit -> outcome pyobj) : M Option pyobj :=
  b <- is_some ;;
  if b then
    value <- get_value ;;
    set_value PyNone ;;
    ret value
  else lift (default tt).

Definition unwrap_unchecked : M Option pyobj :=
  value <- get_value ;;
  set_value PyNone ;;
  ret value.

Definition map (func : pyobj -> outcome pyobj) : M Option Option :=
  b <- is_some ;;
  if b then
    v <- get_value ;;
    u <- lift (func v) ;;
    ret (Some u)
  else ret Null.

Definition map_or (default : pyobj) (func : pyobj -> outcome pyobj) : M Option pyobj :=
  b <- is_some ;;
  if b then
    v <- get_value ;;
    lift (func v)
  else ret default.

Definition map_or_else (default : unit -> outcome pyobj)
    (func : pyobj -> outcome pyobj) : M Option pyobj :=
  b <- is_some ;;
  if b then
    v <- get_value ;;
    lift (func v)
  else lift (default tt).

Definition replace (value : pyobj) : M Option Option :=
  ret_ <- get_value ;;
  set_value value ;;
  if is_None ret_ then ret Null else ret (Some ret_).

Definition take : M Option Option := replace PyNone.

(** [_raise(e)] *)
Definition _raise (e : exn) : outcome pyobj := Raise e.

Definition expect (msg : string) : M Option pyobj :=
  unwrap_or_else (fun _ => _raise (Exception (PyStr msg))).

(** [iter] is a generator function: the call only creates the generator,
    and each [next] runs the body up to the following [yield], reading
    the receiver as it is at that moment.  The body has two [yield]
    statements, so a generator is at one of four points. *)
Inductive gen_pc : Type :=
| AtStart          (* created, body not entered *)
| AfterYieldSome   (* suspended at [yield Some[T](self._value)] *)
| AfterYieldNull   (* suspended at [yield Null[T]()] *)
| Finished.

Definition iter : gen_pc := AtStart.

Definition next (pc : gen_pc) : M Option (Option * gen_pc) :=
  match pc with
  | AtStart =>
      b <- is_some ;;
      if b then
        v <- get_value ;;
        ret (Some v, AfterYieldSome)
      else ret (Null, AfterYieldNull)
  | AfterYieldSome => ret (Null, AfterYieldNull)
  | AfterYieldNull => raise StopIteration
  | Finished => raise StopIteration
  end.

(** [list(g)]: call [next] until it raises.  [StopIteration] ends the
    list; the result pairs the items with [true] when the generator was
    exhausted within [fuel] calls. *)
Fixpoint to_list (fuel : nat) (pc : gen_pc) (self : Option) : list Option * bool :=
  match fuel with
  | O => ([], false)
  | S fuel' =>
      match next pc self with
      | (Return (item, pc'), self') =>
          let (items, done) := to_list fuel' pc' self' in (item :: items, done)
      | (Raise _, _) => ([], true)
      end
  end.

(** [list(g)] again, together with the receiver as the whole iteration
    leaves it. *)
Fixpoint exhaust (fuel : nat) (pc : gen_pc) (self : Option)
    : list Option * bool * Option :=
  match fuel with
  | O => ([], false, self)
  | S fuel' =>
      match next pc self with
      | (Return (item, pc'), self') =>
          let '(items, done, final) := exhaust fuel' pc' self' in
          (item :: items, done, final)
      | (Raise _, self') => ([], true, self')
      end
  end.

(** *** Sequences of method calls on one instance *)

Inductive op : Type :=
| Call_is_some
| Call_is_null
| Call_unwrap
| Call_unwrap_or (default : pyobj)
| Call_unwrap_or_else (default : unit -> outcome pyobj)
| Call_unwrap_unchecked
| Call_map (func : pyobj -> outcome pyobj)
| Call_map_or (default : pyobj) (func : pyobj -> outcome pyobj)
| Call_map_or_else (default : unit -> outcome pyobj) (func : pyobj -> outcome pyobj)
| Call_replace (value : pyobj)
| Call_take
| Call_expect (msg : string)
| Call_next (pc : gen_pc).

(** The receiver after one call, whether it returned or raised. *)
Definition step (o : op) (self : Option) : Option :=
  match o with
  | Call_is_some => snd (is_some self)
  | Call_is_null => snd (is_null self)
  | Call_unwrap => snd (unwrap self)
  | Call_unwrap_or d => snd (unwrap_or d self)
  | Call_unwrap_or_else t => snd (unwrap_or_else t self)
  | Call_unwrap_unchecked => snd (unwrap_unchecked self)
  | Call_map f => snd (map f self)
  | Call_map_or d f => snd (map_or d f self)
  | Call_map_or_else t f => snd (map_or_else t f self)
  | Call_replace v => snd (replace v self)
  | Call_take => snd (take self)
  | Call_expect msg => snd (expect msg self)
  | Call_next pc => snd (next pc self)
  end.

Definition run (ops : list op) (self : Option) : Option :=
  fold_left (fun s o => step o s) ops self.

(** Every call but [replace(v)] with a [v] other than [None]. *)
Definition stores_nothing (o : op) : bool :=
  match o with
  | Call_replace v => is_None v
  | _ => true
  end.

End OptionM.

(** ** class Result *)

(** What [Result.value] can refer to: an instance of the nested class
    [_Ok] (slot [value]), an instance of [_Err] (slot [error]), or [None]
    once an extraction has cleared it. *)
Inductive cell : Type :=
| _Ok (value : pyobj)
| _Err (error : pyobj)
| NoCell.

(** [__slots__ = ("value",)] *)
Record Result : Type := mkResult { value : cell }.

(** [Ok(value)] is [Result(Result._Ok(value))], [Err(error)] is
    [Result(Result._Err(error))]. *)
Definition Ok (v : pyobj) : Result := mkResult (_Ok v).
Definition Err (e : pyobj) : Result := mkResult (_Err e).

(** The second argument of [isinstance]: a class, or a class subscripted
    with type arguments (the object [C[T]] that [Generic] builds). *)
Inductive class : Type := Class_Ok | Class_Err.

Inductive classinfo : Type :=
| Plain (c : class)
| Subscripted (origin : class).

Definition instance_of (obj : cell) (c : class) : bool :=
  match obj, c with
  | _Ok _, Class_Ok => true
  | _Err _, Class_Err => true
  | _, _ => false
  end.

(** [isinstance(obj, classinfo)].  Against a class it tests the class of
    [obj].  A subscripted generic such as [_Ok[T]] is not a class but an
    alias object of the [typing] module, whose [__instancecheck__] raises
    [TypeError] whatever [obj] is.  [Result.is_ok] and [Result.is_err]
    (lines 229 and 237 of the source) pass the subscripted forms
    [self._Ok[T]] and [self._Err[E]]. *)
Definition isinstance (obj : cell) (ci : classinfo) : outcome bool :=
  match ci with
  | Plain c => Return (instance_of obj c)
  | Subscripted _ =>
      Raise (TypeError "Subscripted generics cannot be used with class and instance checks")
  end.

(** [c()]: both cell classes define [__call__] to return their slot;
    [None] is not callable. *)
Definition call (c : cell) : outcome pyobj :=
  match c with
  | _Ok v => Return v
  | _Err e => Return e
  | NoCell => Raise (TypeError "'NoneType' object is not callable")
  end.

Module ResultM.

Definition get_cell : M Result cell := fun self => (Return (value self), self).
Definition set_cell (c : cell) : M Result unit := fun _ => (Return tt, mkResult c).

(** [self.value()] *)
Definition call_value : M Result pyobj :=
  c <- get_cell ;; lift (call c).

(** [isinstance(self.value, self._Ok[T])] *)
Definition is_ok : M Result bool :=
  c <- get_cell ;; lift (isinstance c (Subscripted Class_Ok)).

(** [isinstance(self.value, self._Err[E])] *)
Definition is_err : M Result bool :=
  c <- get_cell ;; lift (isinstance c (Subscripted Class_Err)).

Definition ok : M Result Option :=
  b <- is_ok ;;
  if b then
    v <- call_value ;;
    ret (Some v)
  else ret Null.

Definition err : M Result Option :=
  b <- is_err ;;
  if b then
    v <- call_value ;;
    ret (Some v)
  else ret Null.

Definition expect (msg : string) : M Result pyobj :=
  b <- is_ok ;;
  if b then call_value
  else raise (Exception (PyStr msg)).

(** The generator of [iter], with the same two [yield] points as
    [Option.iter].  A generator whose body raises is finished. *)
Definition iter : OptionM.gen_pc := OptionM.AtStart.

Definition next (pc : OptionM.gen_pc) : M Result (Option * OptionM.gen_pc) :=
  match pc with
  | OptionM.AtStart =>
      b <- is_ok ;;
      if b then
        v <- call_value ;;
        ret (Some v, OptionM.AfterYieldSome)
      else ret (Null, OptionM.AfterYieldNull)
  | OptionM.AfterYieldSome => ret (Null, OptionM.AfterYieldNull)
  | OptionM.AfterYieldNull => raise StopIteration
  | OptionM.Finished => raise StopIteration
  end.

Definition unwrap : M Result pyobj :=
  b <- is_ok ;;
  if b then
    v <- call_value ;;
    set_cell NoCell ;;
    ret v
  else
    v <- call_value ;;
    raise (Exception v).

Definition unwrap_or (default : pyobj) : M Result pyobj :=
  b <- is_ok ;;
  if b then
    v <- call_value ;;
    set_cell NoCell ;;
    ret v
  else ret default.

Definition unwrap_or_else (default : pyobj -> outcome pyobj) : M Result pyobj :=
  b <- is_ok ;;
  if b then
    v <- call_value ;;
    set_cell NoCell ;;
    ret v
  else
    e <- call_value ;;
    lift (default e).

Definition unwrap_unchecked : M Result pyobj :=
  v <- call_value ;;
  set_cell NoCell ;;
  ret v.

Definition unwrap_err : M Result pyobj :=
  b <- is_err ;;
  if b then
    error <- call_value ;;
    set_cell NoCell ;;
    ret error
  else
    v <- call_value ;;
    raise (Exception v).

Definition unwrap_err_unchecked : M Result pyobj :=
  error <- call_value ;;
  set_cell NoCell ;;
  ret error.

(** *** Sequences of method calls on one instance *)

Inductive op : Type :=
| Call_is_ok
| Call_is_err
| Call_ok
| Call_err
| Call_expect (msg : string)
| Call_next (pc : OptionM.gen_pc)
| Call_unwrap
| Call_unwrap_or (default : pyobj)
| Call_unwrap_or_else (default : pyobj -> outcome pyobj)
| Call_unwrap_unchecked
| Call_unwrap_err
| Call_unwrap_err_unchecked.

(** The receiver after one call, whether it returned or raised (the
    caller may catch the exception and go on using the instance). *)
Definition step (o : op) (self : Result) : Result :=
  match o with
  | Call_is_ok => snd (is_ok self)
  | Call_is_err => snd (is_err self)
  | Call_ok => snd (ok self)
  | Call_err => snd (err self)
  | Call_expect msg => snd (expect msg self)
  | Call_next pc => snd (next pc self)
  | Call_unwrap => snd (unwrap self)
  | Call_unwrap_or d => snd (unwrap_or d self)
  | Call_unwrap_or_else f => snd (unwrap_or_else f self)
  | Call_unwrap_unchecked => snd (unwrap_unchecked self)
  | Call_unwrap_err => snd (unwrap_err self)
  | Call_unwrap_err_unchecked => snd (unwrap_err_unchecked self)
  end.

Definition run (ops : list op) (self : Result) : Result :=
  fold_left (fun s o => step o s) ops self.

(** The two extractions that skip the tag check. *)
Definition is_unchecked_extraction (o : op) : bool :=
  match o with
  | Call_unwrap_unchecked | Call_unwrap_err_unchecked => true
  | _ => false
  end.

End ResultM.

(** [lambda v: v + 1] *)
Definition add_one (v : pyobj) : outcome pyobj :=
  match v with
  | PyInt n => Return (PyInt (n + 1))
  | PyBool b => Return (PyInt (Z.b2z b + 1))
  | PyNone => Raise (TypeError "unsupported operand type(s) for +: 'NoneType' and 'int'")
  | PyStr _ => Raise (TypeError "can only concatenate str (not 'int') to str")
  end.

(** [lambda x: g(f(x))] *)
Definition then_call (f g : pyobj -> outcome pyobj) (x : pyobj) : outcome pyobj :=
  match f x with
  | Return y => g y
  | Raise e => Raise e
  end.

(** The message of every [isinstance] failure in [Result]. *)
Definition subscripted_check : exn :=
  TypeError "Subscripted generics cannot be used with class and instance checks".

(** * Properties *)

Ltac run_method :=
  cbv [OptionM.is_some OptionM.is_null OptionM.unwrap OptionM.unwrap_or
       OptionM.unwrap_or_else OptionM.unwrap_unchecked OptionM.map
       OptionM.map_or OptionM.map_or_else OptionM.replace OptionM.take
       OptionM.expect OptionM._raise OptionM.next OptionM.iter
       ResultM.is_ok ResultM.is_err ResultM.ok ResultM.err ResultM.expect
       ResultM.next ResultM.iter ResultM.unwrap ResultM.unwrap_or
       ResultM.unwrap_or_else ResultM.unwrap_unchecked ResultM.unwrap_err
       ResultM.unwrap_err_unchecked ResultM.get_cell ResultM.set_cell
       ResultM.call_value isinstance
       get_value set_value bind ret raise lift Some Null Ok Err
       _value value fst snd].

(** ** Option *)

Section OptionFacts.

Variable x : pyobj.
Hypothesis x_not_None : x <> PyNone.

Lemma is_None_false : is_None x = false.
Proof using x_not_None. destruct x; [contradiction | reflexivity ..]. Qed.

Lemma is_some_Some : OptionM.is_some (Some x) = (Return true, Some x).
Proof using x_not_None. run_method. now rewrite is_None_false. Qed.

Lemma unwrap_Some : OptionM.unwrap (Some x) = (Return x, Null).
Proof using x_not_None. run_method. now rewrite is_None_false. Qed.

End OptionFacts.

Lemma unwrap_Null :
  OptionM.unwrap Null =
  (Raise (Exception (PyStr "Called unwrap on a null value")), Null).
Proof. reflexivity. Qed.

(** C1.  For every value [x] other than [None], the first [unwrap()] on
    [Some(x)] returns [x] and leaves the instance absent, and a second
    [unwrap()] on that same instance raises the exception of an absent
    container, [Exception("Called unwrap on a null value")]. *)
Theorem unwrap_single_consumption (x : pyobj) (Hx : x <> PyNone) :
  OptionM.unwrap (Some x) = (Return x, Null) /\
  OptionM.unwrap (snd (OptionM.unwrap (Some x))) =
    (Raise (Exception (PyStr "Called unwrap on a null value")), Null).
Proof.
  rewrite (unwrap_Some x Hx). split; [reflexivity | apply unwrap_Null].
Qed.

Lemma unwrap_single_consumption_witness :
  PyInt 5 <> PyNone /\
  OptionM.unwrap (Some (PyInt 5)) = (Return (PyInt 5), Null) /\
  OptionM.unwrap (snd (OptionM.unwrap (Some (PyInt 5)))) =
    (Raise (Exception (PyStr "Called unwrap on a null value")), Null).
Proof.
  split; [discriminate | apply (unwrap_single_consumption (PyInt 5)); discriminate].
Defined.

(** C2, as stated, fails: after [Some(5).map(lambda v: v + 1)] the
    receiver still holds [5] and still reports [is_some()]. *)
Lemma map_receiver_still_present :
  OptionM.map add_one (Some (PyInt 5)) = (Return (Some (PyInt 6)), Some (PyInt 5)) /\
  snd (OptionM.map add_one (Some (PyInt 5))) <> Null /\
  fst (OptionM.is_some (snd (OptionM.map add_one (Some (PyInt 5))))) = Return true.
Proof. repeat split; [discriminate]. Qed.

(** C2, amended.  [map] does not consume the receiver.  For every
    function [func]: on a present container holding [v], if [func(v)]
    returns [u], [map(func)] returns the new container [Some(u)] and
    leaves the receiver holding [v]; on an absent container [map(func)]
    returns a new absent container and leaves the receiver absent,
    whatever [func] is. *)
Theorem map_keeps_receiver (func : pyobj -> outcome pyobj) :
  (forall v u : pyobj, v <> PyNone -> func v = Return u ->
     OptionM.map func (Some v) = (Return (Some u), Some v)) /\
  OptionM.map func Null = (Return Null, Null).
Proof.
  split; [| reflexivity].
  intros v u Hv Hfunc.
  run_method. rewrite (is_None_false v Hv). cbn. now rewrite Hfunc.
Qed.

Lemma map_keeps_receiver_witness :
  PyInt 5 <> PyNone /\ add_one (PyInt 5) = Return (PyInt 6) /\
  OptionM.map add_one (Some (PyInt 5)) = (Return (Some (PyInt 6)), Some (PyInt 5)) /\
  OptionM.map add_one Null = (Return Null, Null) /\
  OptionM.map (fun _ => Raise StopIteration) Null = (Return Null, Null).
Proof.
  split; [discriminate |]. split; [reflexivity |]. split; [| split].
  - apply (proj1 (map_keeps_receiver add_one) (PyInt 5) (PyInt 6));
      [discriminate | reflexivity].
  - apply (proj2 (map_keeps_receiver add_one)).
  - apply (proj2 (map_keeps_receiver (fun _ => Raise StopIteration))).
Defined.

(** C3, as stated, fails: [list(Some(7).iter())] has two elements, the
    containers [Some(7)] and [Null()], and [list(Null().iter())] is not
    empty: it has the one element [Null()]. *)
Lemma iter_not_zero_or_one :
  OptionM.to_list 3 OptionM.iter (Some (PyInt 7)) = ([Some (PyInt 7); Null], true) /\
  length (fst (OptionM.to_list 3 OptionM.iter (Some (PyInt 7)))) <> 1%nat /\
  OptionM.to_list 3 OptionM.iter Null = ([Null], true) /\
  fst (OptionM.to_list 3 OptionM.iter Null) <> [].
Proof. repeat split; discriminate. Qed.

(** C3, amended.  [iter()] yields containers and ends with an absent one:
    on a present container holding [v] it yields [Some(v)] and then
    [Null()], on an absent container it yields [Null()] alone; the
    generator is exhausted after that (three calls of [next] are enough,
    more change nothing), and the receiver is not consumed: every step of
    the generator, and so the whole iteration, leaves it holding what it
    held. *)
Theorem iter_yields_Some_then_Null (v : pyobj) (fuel : nat) (Hv : v <> PyNone) :
  OptionM.to_list (3 + fuel) OptionM.iter (Some v) = ([Some v; Null], true) /\
  OptionM.to_list (3 + fuel) OptionM.iter Null = ([Null], true) /\
  snd (OptionM.next OptionM.iter (Some v)) = Some v /\
  OptionM.exhaust (3 + fuel) OptionM.iter (Some v) = ([Some v; Null], true, Some v) /\
  OptionM.exhaust (3 + fuel) OptionM.iter Null = ([Null], true, Null) /\
  (forall pc : OptionM.gen_pc, snd (OptionM.next pc (Some v)) = Some v) /\
  (forall pc : OptionM.gen_pc, snd (OptionM.next pc Null) = Null).
Proof.
  destruct v; [contradiction | ..];
    (repeat split; try reflexivity; intros pc; destruct pc; reflexivity).
Qed.

Lemma iter_yields_Some_then_Null_witness :
  PyInt 7 <> PyNone /\
  OptionM.to_list 3 OptionM.iter (Some (PyInt 7)) = ([Some (PyInt 7); Null], true) /\
  OptionM.to_list 3 OptionM.iter Null = ([Null], true) /\
  snd (OptionM.next OptionM.iter (Some (PyInt 7))) = Some (PyInt 7) /\
  OptionM.exhaust 3 OptionM.iter (Some (PyInt 7)) =
    ([Some (PyInt 7); Null], true, Some (PyInt 7)) /\
  OptionM.exhaust 3 OptionM.iter Null = ([Null], true, Null) /\
  (forall pc : OptionM.gen_pc, snd (OptionM.next pc (Some (PyInt 7))) = Some (PyInt 7)) /\
  (forall pc : OptionM.gen_pc, snd (OptionM.next pc Null) = Null).
Proof.
  split; [discriminate |].
  apply (iter_yields_Some_then_Null (PyInt 7) 0); discriminate.
Defined.

(** C7.  [Some(None)] is the same container as [Null()]: [is_some()]
    returns false on it and [is_null()] returns true. *)
Theorem Some_None_is_Null :
  Some PyNone = Null /\
  OptionM.is_some (Some PyNone) = (Return false, Null) /\
  OptionM.is_null (Some PyNone) = (Return true, Null).
Proof. repeat split. Qed.

(** X9.  The checking and default-supplying methods of [Option] return on
    every state, when the caller's functions return. *)
Lemma option_checks_and_defaults_return (o : Option) (d : pyobj)
    (thunk : unit -> outcome pyobj) (func : pyobj -> outcome pyobj)
    (Hthunk : returns (thunk tt) = true)
    (Hfunc : forall v, returns (func v) = true) :
  returns (fst (OptionM.is_some o)) = true /\
  returns (fst (OptionM.is_null o)) = true /\
  returns (fst (OptionM.unwrap_or d o)) = true /\
  returns (fst (OptionM.unwrap_or_else thunk o)) = true /\
  returns (fst (OptionM.map_or d func o)) = true /\
  returns (fst (OptionM.map_or_else thunk func o)) = true.
Proof.
  destruct o as [v]. run_method.
  repeat split; destruct (is_None v); cbn; auto.
Qed.

(** ** Result *)

(** Both tag checks test against a subscripted class, so they raise on
    every receiver, and leave it as it was. *)
Lemma is_ok_always_raises (self : Result) :
  ResultM.is_ok self = (Raise subscripted_check, self).
Proof. reflexivity. Qed.

Lemma is_err_always_raises (self : Result) :
  ResultM.is_err self = (Raise subscripted_check, self).
Proof. reflexivity. Qed.

(** Against the classes themselves the same test tells the three cells
    apart; a cleared cell is an instance of neither. *)
Lemma plain_check_of_cells (v : pyobj) :
  isinstance (_Ok v) (Plain Class_Ok) = Return true /\
  isinstance (_Err v) (Plain Class_Err) = Return true /\
  isinstance NoCell (Plain Class_Ok) = Return false /\
  isinstance NoCell (Plain Class_Err) = Return false.
Proof. repeat split. Qed.

(** X20.  Every method that starts with a tag check raises in turn,
    before it reads or writes the cell: [ok], [err], [expect], the first
    step of [iter], [unwrap], [unwrap_or], [unwrap_or_else] and
    [unwrap_err] raise [TypeError] on every receiver and leave it as it
    was. *)
Lemma checked_methods_raise (self : Result) (msg : string) (d : pyobj)
    (f : pyobj -> outcome pyobj) :
  ResultM.ok self = (Raise subscripted_check, self) /\
  ResultM.err self = (Raise subscripted_check, self) /\
  ResultM.expect msg self = (Raise subscripted_check, self) /\
  ResultM.next ResultM.iter self = (Raise subscripted_check, self) /\
  ResultM.unwrap self = (Raise subscripted_check, self) /\
  ResultM.unwrap_or d self = (Raise subscripted_check, self) /\
  ResultM.unwrap_or_else f self = (Raise subscripted_check, self) /\
  ResultM.unwrap_err self = (Raise subscripted_check, self).
Proof. repeat split. Qed.

(** The two unchecked extractions read whichever cell is there and clear
    it; on a cleared cell they raise and change nothing. *)
Lemma unwrap_unchecked_spec (self : Result) :
  ResultM.unwrap_unchecked self =
  match value self with
  | _Ok v => (Return v, mkResult NoCell)
  | _Err e => (Return e, mkResult NoCell)
  | NoCell => (Raise (TypeError "'NoneType' object is not callable"), self)
  end.
Proof. destruct self as [[v | e |]]; reflexivity. Qed.

Lemma unwrap_err_unchecked_spec (self : Result) :
  ResultM.unwrap_err_unchecked self = ResultM.unwrap_unchecked self.
Proof. reflexivity. Qed.

(** One call either leaves the cell alone or clears it. *)
Lemma step_cell (o : ResultM.op) (self : Result) :
  value (ResultM.step o self) = value self \/
  value (ResultM.step o self) = NoCell.
Proof.
  destruct self as [[v | e |]];
    destruct o as [| | | | msg | [] | | d | f | | |]; cbn; auto.
Qed.

(** C4, as stated, fails: after the extraction [Ok(5).unwrap_unchecked()]
    returned [5], the cell is [None], no longer an [_Ok] cell, and
    [is_ok()] does not report true. *)
Lemma tag_gone_after_extraction :
  ResultM.unwrap_unchecked (Ok (PyInt 5)) = (Return (PyInt 5), mkResult NoCell) /\
  instance_of (value (ResultM.run [ResultM.Call_unwrap_unchecked] (Ok (PyInt 5))))
    Class_Ok = false /\
  fst (ResultM.is_ok (ResultM.run [ResultM.Call_unwrap_unchecked] (Ok (PyInt 5))))
    <> Return true.
Proof. repeat split; discriminate. Qed.

(** C4, amended.  The cell installed at construction is never replaced by
    another cell: after any sequence of method calls on a [Result], its
    cell is either the very cell it was built with (same tag, same
    payload) or has been cleared to [None] by an extraction. *)
Theorem cell_kept_or_cleared (ops : list ResultM.op) (self : Result) :
  value (ResultM.run ops self) = value self \/
  value (ResultM.run ops self) = NoCell.
Proof.
  revert self. induction ops as [| o ops IH]; intros self; [now left |].
  cbn [ResultM.run fold_left]. fold (ResultM.run ops (ResultM.step o self)).
  destruct (IH (ResultM.step o self)) as [Hkeep | Hclear]; [| now right].
  rewrite Hkeep. apply step_cell.
Qed.

(** C5 on the code: on [Ok(5)] the extractions [expect("m")], [unwrap()],
    [unwrap_or(0)] and [unwrap_or_else(f)], and on [Err("e")] the
    extraction [unwrap_err()], raise [TypeError] at their tag check: no
    payload is retrieved and the cell still holds it afterwards.  Only
    the two unchecked extractions retrieve the payload and clear the
    cell. *)
Theorem checked_extractions_extract_nothing :
  ResultM.expect "m" (Ok (PyInt 5)) = (Raise subscripted_check, Ok (PyInt 5)) /\
  ResultM.unwrap (Ok (PyInt 5)) = (Raise subscripted_check, Ok (PyInt 5)) /\
  ResultM.unwrap_or (PyInt 0) (Ok (PyInt 5)) = (Raise subscripted_check, Ok (PyInt 5)) /\
  ResultM.unwrap_or_else (fun _ => Return (PyInt 0)) (Ok (PyInt 5)) =
    (Raise subscripted_check, Ok (PyInt 5)) /\
  ResultM.unwrap_err (Err (PyStr "e")) = (Raise subscripted_check, Err (PyStr "e")) /\
  value (snd (ResultM.expect "m" (Ok (PyInt 5)))) = _Ok (PyInt 5) /\
  value (snd (ResultM.unwrap (Ok (PyInt 5)))) = _Ok (PyInt 5) /\
  value (snd (ResultM.unwrap_err (Err (PyStr "e")))) = _Err (PyStr "e") /\
  ResultM.unwrap_unchecked (Ok (PyInt 5)) = (Return (PyInt 5), mkResult NoCell) /\
  ResultM.unwrap_err_unchecked (Err (PyStr "e")) = (Return (PyStr "e"), mkResult NoCell).
Proof. repeat split. Qed.

(** C6 on the code: on a freshly built [Ok(5)] the checks [is_ok()] and
    [is_err()] raise [TypeError], and so do [unwrap_or(0)] and
    [unwrap_or_else(f)] for a function [f] that returns; they raise as
    well on the instance that [unwrap_unchecked()] has consumed. *)
Theorem result_checks_and_defaults_raise :
  returns (fst (ResultM.is_ok (Ok (PyInt 5)))) = false /\
  returns (fst (ResultM.is_err (Ok (PyInt 5)))) = false /\
  returns (fst (ResultM.unwrap_or (PyInt 0) (Ok (PyInt 5)))) = false /\
  returns (fst (ResultM.unwrap_or_else (fun _ => Return (PyInt 0)) (Ok (PyInt 5)))) = false /\
  returns (fst (ResultM.unwrap_or_else (fun _ => Return (PyInt 0))
                  (snd (ResultM.unwrap_unchecked (Ok (PyInt 5)))))) = false /\
  fst (ResultM.is_ok (Ok (PyInt 5))) = Raise subscripted_check.
Proof. repeat split. Qed.

(** C8 on the code: [Ok(5).ok()], [Ok(5).err()], [Err("e").ok()] and
    [Err("e").err()] raise [TypeError]; none of them yields an [Option]. *)
Theorem conversions_raise :
  ResultM.ok (Ok (PyInt 5)) = (Raise subscripted_check, Ok (PyInt 5)) /\
  ResultM.err (Ok (PyInt 5)) = (Raise subscripted_check, Ok (PyInt 5)) /\
  ResultM.ok (Err (PyStr "e")) = (Raise subscripted_check, Err (PyStr "e")) /\
  ResultM.err (Err (PyStr "e")) = (Raise subscripted_check, Err (PyStr "e")).
Proof. repeat split. Qed.

(** C9 on the code: after [Ok(5).unwrap_unchecked()] returned [5] and
    cleared the cell, [is_ok()] and [is_err()] raise [TypeError]; neither
    returns false. *)
Theorem checks_raise_after_extraction :
  ResultM.unwrap_unchecked (Ok (PyInt 5)) = (Return (PyInt 5), mkResult NoCell) /\
  fst (ResultM.is_ok (snd (ResultM.unwrap_unchecked (Ok (PyInt 5))))) =
    Raise subscripted_check /\
  fst (ResultM.is_err (snd (ResultM.unwrap_unchecked (Ok (PyInt 5))))) =
    Raise subscripted_check.
Proof. repeat split. Qed.

(** C10 on the code: two successive calls of [ok()] on [Ok(5)] leave the
    cell holding [5], and each of them raises [TypeError] where a present
    [Option] holding [5] was to be returned. *)
Theorem ok_twice_raises :
  ResultM.ok (Ok (PyInt 5)) = (Raise subscripted_check, Ok (PyInt 5)) /\
  ResultM.ok (snd (ResultM.ok (Ok (PyInt 5)))) = (Raise subscripted_check, Ok (PyInt 5)) /\
  fst (ResultM.ok (Ok (PyInt 5))) <> Return (Some (PyInt 5)).
Proof. repeat split; discriminate. Qed.

(** * Further properties of the code *)

(** ** Option: replace and take *)

(** X1.  [replace(new)] hands back the container as it was and stores
    [new]: whatever the slot held, None included, the returned container
    holds exactly that, and the receiver becomes [Some(new)]. *)
Theorem replace_returns_previous (old new : pyobj) :
  OptionM.replace new (mkOption old) = (Return (mkOption old), Some new).
Proof. destruct old; reflexivity. Qed.

(** X2.  After [old = o.replace(w)] on [o = Some(v)], with [v] and [w]
    other than None, [old.unwrap()] returns [v] and [o.unwrap()] returns
    [w]. *)
Theorem replace_then_unwrap (v w : pyobj) (Hv : v <> PyNone) (Hw : w <> PyNone) :
  exists old o',
    OptionM.replace w (Some v) = (Return old, o') /\
    OptionM.unwrap old = (Return v, Null) /\
    OptionM.unwrap o' = (Return w, Null).
Proof.
  exists (Some v), (Some w). rewrite !unwrap_Some by assumption.
  split; [destruct v; [contradiction | reflexivity ..] | split; reflexivity].
Qed.

Lemma replace_then_unwrap_witness :
  exists old o',
    OptionM.replace (PyInt 2) (Some (PyInt 1)) = (Return old, o') /\
    OptionM.unwrap old = (Return (PyInt 1), Null) /\
    OptionM.unwrap o' = (Return (PyInt 2), Null).
Proof.
  apply (replace_then_unwrap (PyInt 1) (PyInt 2)); discriminate.
Defined.

(** X3.  [take()] moves the content out: it returns the container as it
    was and leaves the receiver absent, so that a second [take()] returns
    an absent container and [unwrap()] on the receiver raises. *)
Theorem take_moves_content (o : Option) :
  OptionM.take o = (Return o, Null) /\
  OptionM.take (snd (OptionM.take o)) = (Return Null, Null) /\
  OptionM.unwrap (snd (OptionM.take o)) =
    (Raise (Exception (PyStr "Called unwrap on a null value")), Null).
Proof.
  destruct o as [[]]; repeat split.
Qed.

(** X4.  Every extracting method of [Option] leaves the receiver absent,
    whether it returned or raised: [unwrap], [unwrap_or],
    [unwrap_or_else], [unwrap_unchecked], [expect] and [take]. *)
Theorem extraction_leaves_absent (o : Option) (d : pyobj)
    (thunk : unit -> outcome pyobj) (msg : string) :
  snd (OptionM.unwrap o) = Null /\
  snd (OptionM.unwrap_or d o) = Null /\
  snd (OptionM.unwrap_or_else thunk o) = Null /\
  snd (OptionM.unwrap_unchecked o) = Null /\
  snd (OptionM.expect msg o) = Null /\
  snd (OptionM.take o) = Null.
Proof. destruct o as [[]]; repeat split. Qed.

(** ** Option: the unwrap family *)

(** X5.  [unwrap_unchecked()] returns whatever [unwrap()] returns, in the
    same final state; where [unwrap()] raises, on an absent container, it
    returns [None] instead of raising. *)
Theorem unwrap_unchecked_agrees (o s : Option) (v : pyobj)
    (Hunwrap : OptionM.unwrap o = (Return v, s)) :
  OptionM.unwrap_unchecked o = (Return v, s) /\
  OptionM.unwrap_unchecked Null = (Return PyNone, Null).
Proof.
  split; [| reflexivity].
  destruct o as [[]]; cbn in Hunwrap; try discriminate Hunwrap; exact Hunwrap.
Qed.

Lemma unwrap_unchecked_agrees_witness :
  OptionM.unwrap (Some (PyInt 5)) = (Return (PyInt 5), Null) /\
  OptionM.unwrap_unchecked (Some (PyInt 5)) = (Return (PyInt 5), Null) /\
  OptionM.unwrap_unchecked Null = (Return PyNone, Null).
Proof.
  split; [reflexivity |].
  apply (unwrap_unchecked_agrees (Some (PyInt 5)) Null (PyInt 5)); reflexivity.
Defined.

(** X6.  [expect(msg)] is [unwrap()] with the caller's message: it returns
    what [unwrap()] returns, and where [unwrap()] raises it raises
    [Exception(msg)], with the same final state. *)
Theorem expect_as_unwrap (o : Option) (msg : string) :
  OptionM.expect msg o =
  match OptionM.unwrap o with
  | (Return v, s) => (Return v, s)
  | (Raise _, s) => (Raise (Exception (PyStr msg)), s)
  end.
Proof. destruct o as [[]]; reflexivity. Qed.

(** X7.  With a default other than None, [unwrap_or(default)] returns a
    value other than None on every receiver: the content when present,
    the default when absent. *)
Theorem unwrap_or_not_None (o : Option) (d : pyobj) (Hd : d <> PyNone) :
  exists v, fst (OptionM.unwrap_or d o) = Return v /\ v <> PyNone /\
            (v = _value o \/ (_value o = PyNone /\ v = d)).
Proof.
  destruct o as [[]]; cbn;
    [exists d; auto | eexists; repeat split; [discriminate | left; reflexivity] ..].
Qed.

Lemma unwrap_or_not_None_witness :
  exists v, fst (OptionM.unwrap_or (PyInt 0) Null) = Return v /\ v <> PyNone /\
            (v = _value Null \/ (_value Null = PyNone /\ v = PyInt 0)).
Proof. apply (unwrap_or_not_None Null (PyInt 0)); discriminate. Defined.

(** X8.  The defaults are consulted only on an absent receiver.  On a
    present one [unwrap_or_else] returns the content and [map_or_else]
    runs [func] on it, whatever the thunk would do; on an absent one both
    give the thunk's outcome and [func] is not run. *)
Theorem defaults_only_when_absent (v : pyobj) (thunk : unit -> outcome pyobj)
    (func : pyobj -> outcome pyobj) (Hv : v <> PyNone) :
  OptionM.unwrap_or_else thunk (Some v) = (Return v, Null) /\
  OptionM.map_or_else thunk func (Some v) = (func v, Some v) /\
  OptionM.unwrap_or_else thunk Null = (thunk tt, Null) /\
  OptionM.map_or_else thunk func Null = (thunk tt, Null).
Proof.
  destruct v; [contradiction | repeat split ..].
Qed.

Lemma defaults_only_when_absent_witness :
  OptionM.unwrap_or_else (fun _ => Raise StopIteration) (Some (PyInt 5)) =
    (Return (PyInt 5), Null) /\
  OptionM.map_or_else (fun _ => Raise StopIteration) add_one (Some (PyInt 5)) =
    (add_one (PyInt 5), Some (PyInt 5)) /\
  OptionM.unwrap_or_else (fun _ => Raise StopIteration) Null = (Raise StopIteration, Null) /\
  OptionM.map_or_else (fun _ => Raise StopIteration) add_one Null =
    (Raise StopIteration, Null).
Proof.
  apply (defaults_only_when_absent (PyInt 5) (fun _ => Raise StopIteration) add_one).
  discriminate.
Defined.

Lemma option_checks_and_defaults_return_witness :
  returns (fst (OptionM.is_some Null)) = true /\
  returns (fst (OptionM.is_null Null)) = true /\
  returns (fst (OptionM.unwrap_or (PyInt 0) Null)) = true /\
  returns (fst (OptionM.unwrap_or_else (fun _ => Return (PyInt 0)) Null)) = true /\
  returns (fst (OptionM.map_or (PyInt 0) (fun v => Return v) Null)) = true /\
  returns (fst (OptionM.map_or_else (fun _ => Return (PyInt 0)) (fun v => Return v) Null)) = true.
Proof.
  apply (option_checks_and_defaults_return Null (PyInt 0)
           (fun _ => Return (PyInt 0)) (fun v => Return v)); reflexivity.
Defined.

(** ** Option: the map family and iter *)

(** X10.  The checks, the three map methods and a step of the generator
    leave the receiver exactly as it was, also when the caller's function
    or thunk raises. *)
Theorem non_extracting_keep_receiver (o : Option) (d : pyobj)
    (thunk : unit -> outcome pyobj) (func : pyobj -> outcome pyobj)
    (pc : OptionM.gen_pc) :
  snd (OptionM.is_some o) = o /\
  snd (OptionM.is_null o) = o /\
  snd (OptionM.map func o) = o /\
  snd (OptionM.map_or d func o) = o /\
  snd (OptionM.map_or_else thunk func o) = o /\
  snd (OptionM.next pc o) = o.
Proof.
  destruct o as [v]. run_method.
  repeat split; try (destruct (is_None v); cbn; try destruct (func v); reflexivity).
  destruct pc; cbn; try reflexivity. destruct (is_None v); reflexivity.
Qed.

(** X11.  An exception of the caller's function comes out of [map],
    [map_or] and [map_or_else] unchanged, and no container is built. *)
Theorem map_propagates_exception (v d : pyobj) (e : exn)
    (thunk : unit -> outcome pyobj) (func : pyobj -> outcome pyobj)
    (Hv : v <> PyNone) (Hfunc : func v = Raise e) :
  OptionM.map func (Some v) = (Raise e, Some v) /\
  OptionM.map_or d func (Some v) = (Raise e, Some v) /\
  OptionM.map_or_else thunk func (Some v) = (Raise e, Some v).
Proof.
  run_method. rewrite (is_None_false v Hv). cbn. rewrite Hfunc. repeat split.
Qed.

Lemma map_propagates_exception_witness :
  OptionM.map add_one (Some (PyStr "a")) =
    (Raise (TypeError "can only concatenate str (not 'int') to str"), Some (PyStr "a")) /\
  OptionM.map_or (PyInt 0) add_one (Some (PyStr "a")) =
    (Raise (TypeError "can only concatenate str (not 'int') to str"), Some (PyStr "a")) /\
  OptionM.map_or_else (fun _ => Return (PyInt 0)) add_one (Some (PyStr "a")) =
    (Raise (TypeError "can only concatenate str (not 'int') to str"), Some (PyStr "a")).
Proof.
  apply (map_propagates_exception (PyStr "a") (PyInt 0)
           (TypeError "can only concatenate str (not 'int') to str")
           (fun _ => Return (PyInt 0)) add_one); [discriminate | reflexivity].
Defined.

(** X12.  Mapping twice is mapping the composition, as long as the first
    function does not return None: if [f(v) = u] with [v] and [u] other
    than None, then [Some(v).map(f)] is [Some(u)], and [map(g)] on it has
    the outcome of [Some(v).map(lambda x: g(f(x)))]. *)
Theorem map_map (v u : pyobj) (f g : pyobj -> outcome pyobj)
    (Hv : v <> PyNone) (Hf : f v = Return u) (Hu : u <> PyNone) :
  fst (OptionM.map f (Some v)) = Return (Some u) /\
  fst (OptionM.map g (Some u)) = fst (OptionM.map (then_call f g) (Some v)).
Proof.
  run_method. rewrite (is_None_false v Hv), (is_None_false u Hu). cbn.
  unfold then_call. rewrite Hf. cbn. split; [reflexivity |].
  destruct (g u); reflexivity.
Qed.

Lemma map_map_witness :
  fst (OptionM.map add_one (Some (PyInt 5))) = Return (Some (PyInt 6)) /\
  fst (OptionM.map add_one (Some (PyInt 6))) =
    fst (OptionM.map (then_call add_one add_one) (Some (PyInt 5))).
Proof.
  apply (map_map (PyInt 5) (PyInt 6) add_one add_one);
    [discriminate | reflexivity | discriminate].
Defined.

(** X13.  When the function returns None, [map] returns an absent
    container, on which a further [map(g)] does not run [g]: the
    composition law of X12 stops there, since [lambda x: g(f(x))] does
    run [g] on None. *)
Theorem map_to_None_is_absent (v w : pyobj) (f g : pyobj -> outcome pyobj)
    (Hv : v <> PyNone) (Hf : f v = Return PyNone) (Hg : g PyNone = Return w) :
  OptionM.map f (Some v) = (Return Null, Some v) /\
  OptionM.map g Null = (Return Null, Null) /\
  OptionM.map (then_call f g) (Some v) = (Return (Some w), Some v).
Proof.
  run_method. rewrite (is_None_false v Hv). cbn.
  unfold then_call. rewrite Hf, Hg. repeat split.
Qed.

Lemma map_to_None_is_absent_witness :
  OptionM.map (fun _ => Return PyNone) (Some (PyInt 5)) = (Return Null, Some (PyInt 5)) /\
  OptionM.map (fun _ => Return (PyInt 0)) Null = (Return Null, Null) /\
  OptionM.map (then_call (fun _ => Return PyNone) (fun _ => Return (PyInt 0)))
    (Some (PyInt 5)) = (Return (Some (PyInt 0)), Some (PyInt 5)).
Proof.
  apply (map_to_None_is_absent (PyInt 5) (PyInt 0)
           (fun _ => Return PyNone) (fun _ => Return (PyInt 0)));
    [discriminate | reflexivity | reflexivity].
Defined.

(** X14.  A generator of [iter()] yields at most two items, whatever is
    done to the receiver between the calls of [next]: if two calls have
    yielded, the second item is an absent container and the third call
    raises [StopIteration], and so does every call after it. *)
Theorem iter_at_most_two (o1 o2 o3 s1 s2 : Option) (item1 item2 : Option)
    (pc1 pc2 : OptionM.gen_pc)
    (Hfirst : OptionM.next OptionM.iter o1 = (Return (item1, pc1), s1))
    (Hsecond : OptionM.next pc1 o2 = (Return (item2, pc2), s2)) :
  item1 = o1 /\ item2 = Null /\
  OptionM.next pc2 o3 = (Raise StopIteration, o3).
Proof.
  destruct o1 as [[]], o2 as [v2]; cbn in Hfirst;
    inversion Hfirst; subst; cbn in Hsecond;
    try discriminate Hsecond; inversion Hsecond; subst; repeat split.
Qed.

Lemma iter_at_most_two_witness :
  Some (PyInt 7) = Some (PyInt 7) /\ Null = Null /\
  OptionM.next OptionM.AfterYieldNull (Some (PyInt 9)) =
    (Raise StopIteration, Some (PyInt 9)).
Proof.
  apply (iter_at_most_two (Some (PyInt 7)) Null (Some (PyInt 9))
           (Some (PyInt 7)) Null (Some (PyInt 7)) Null
           OptionM.AfterYieldSome OptionM.AfterYieldNull); reflexivity.
Defined.

(** ** Option: what a sequence of calls can leave in the slot *)

Lemma option_step_slot (o : OptionM.op) (self : Option) :
  _value (OptionM.step o self) = PyNone \/
  _value (OptionM.step o self) = _value self \/
  o = OptionM.Call_replace (_value (OptionM.step o self)).
Proof.
  destruct self as [old].
  destruct o as [| | | d | t | | f | d f | t f | v | | msg | pc];
    cbn [OptionM.step]; run_method;
    try destruct pc; destruct (is_None old); cbn;
    try destruct (f old); try destruct (t tt); cbn; auto.
Qed.

Lemma option_step_Null (o : OptionM.op) :
  OptionM.stores_nothing o = true -> OptionM.step o Null = Null.
Proof.
  destruct o as [| | | d | t | | f | d f | t f | v | | msg | pc];
    cbn; try reflexivity.
  - destruct v; [reflexivity | discriminate ..].
  - destruct pc; reflexivity.
Qed.

(** X15.  The slot never receives a value the module made up: after any
    sequence of calls on an [Option], the slot holds None, or what it
    held at the start, or a value that one of the calls passed to
    [replace].  In particular no result of a caller's function or thunk
    is ever stored. *)
Theorem slot_provenance (ops : list OptionM.op) (self : Option) :
  _value (OptionM.run ops self) = PyNone \/
  _value (OptionM.run ops self) = _value self \/
  In (OptionM.Call_replace (_value (OptionM.run ops self))) ops.
Proof.
  revert self. induction ops as [| o ops IH]; intros self; [auto |].
  cbn [OptionM.run fold_left]. fold (OptionM.run ops (OptionM.step o self)).
  destruct (IH (OptionM.step o self)) as [Hnone | [Hsame | Hin]].
  - auto.
  - rewrite Hsame.
    destruct (option_step_slot o self) as [H | [H | H]]; auto.
    right; right; left. exact H.
  - right; right; right; exact Hin.
Qed.

(** X16.  An absent [Option] stays absent under every sequence of calls
    in which no [replace] stores a value other than None. *)
Theorem absent_stays_absent (ops : list OptionM.op)
    (Hops : forallb OptionM.stores_nothing ops = true) :
  OptionM.run ops Null = Null.
Proof.
  induction ops as [| o ops IH]; [reflexivity |].
  cbn [forallb] in Hops. apply andb_prop in Hops as [Ho Hrest].
  cbn [OptionM.run fold_left]. rewrite (option_step_Null o Ho).
  exact (IH Hrest).
Qed.

Lemma absent_stays_absent_witness :
  OptionM.run [OptionM.Call_unwrap; OptionM.Call_map add_one;
               OptionM.Call_replace PyNone; OptionM.Call_take;
               OptionM.Call_unwrap_or (PyInt 3)] Null = Null.
Proof.
  apply (absent_stays_absent
           [OptionM.Call_unwrap; OptionM.Call_map add_one;
            OptionM.Call_replace PyNone; OptionM.Call_take;
            OptionM.Call_unwrap_or (PyInt 3)]).
  reflexivity.
Defined.

(** ** Result: the unchecked extractions and the checked methods *)

(** X17.  The unchecked extractions do not look at the tag: on a success
    cell and on a failure cell alike, [unwrap_unchecked()] and
    [unwrap_err_unchecked()] return the payload, also when it is None,
    and clear the cell. *)
Theorem unchecked_ignores_tag (v : pyobj) :
  ResultM.unwrap_unchecked (Ok v) = (Return v, mkResult NoCell) /\
  ResultM.unwrap_unchecked (Err v) = (Return v, mkResult NoCell) /\
  ResultM.unwrap_err_unchecked (Ok v) = (Return v, mkResult NoCell) /\
  ResultM.unwrap_err_unchecked (Err v) = (Return v, mkResult NoCell).
Proof. repeat split. Qed.

(** X18.  A [Result] can be extracted once: after an unchecked extraction
    has returned, either unchecked extraction on that instance raises
    [TypeError], the cell being None and not callable, and leaves the
    instance cleared. *)
Theorem second_extraction_raises (self self' : Result) (v : pyobj)
    (Hfirst : ResultM.unwrap_unchecked self = (Return v, self')) :
  ResultM.unwrap_unchecked self' =
    (Raise (TypeError "'NoneType' object is not callable"), self') /\
  ResultM.unwrap_err_unchecked self' =
    (Raise (TypeError "'NoneType' object is not callable"), self') /\
  value self' = NoCell.
Proof.
  destruct self as [[w | e |]]; cbn in Hfirst;
    try discriminate Hfirst; inversion Hfirst; subst; repeat split.
Qed.

Lemma second_extraction_raises_witness :
  ResultM.unwrap_unchecked (mkResult NoCell) =
    (Raise (TypeError "'NoneType' object is not callable"), mkResult NoCell) /\
  ResultM.unwrap_err_unchecked (mkResult NoCell) =
    (Raise (TypeError "'NoneType' object is not callable"), mkResult NoCell) /\
  value (mkResult NoCell) = NoCell.
Proof.
  apply (second_extraction_raises (Err (PyStr "e")) (mkResult NoCell) (PyStr "e")).
  reflexivity.
Defined.

(** X19.  Only the two unchecked extractions can change a [Result]: any
    sequence of the other calls, whether they return or raise, leaves
    the instance exactly as it was. *)
Theorem checked_calls_keep_result (ops : list ResultM.op) (self : Result)
    (Hops : forallb (fun o => negb (ResultM.is_unchecked_extraction o)) ops = true) :
  ResultM.run ops self = self.
Proof.
  revert self. induction ops as [| o ops IH]; intros self; [reflexivity |].
  cbn [forallb] in Hops. apply andb_prop in Hops as [Ho Hrest].
  cbn [ResultM.run fold_left]. fold (ResultM.run ops (ResultM.step o self)).
  rewrite (IH Hrest).
  destruct o as [| | | | msg | [] | | d | f | | |];
    try discriminate Ho; reflexivity.
Qed.

Lemma checked_calls_keep_result_witness :
  ResultM.run [ResultM.Call_unwrap; ResultM.Call_expect "m"; ResultM.Call_ok;
               ResultM.Call_unwrap_err; ResultM.Call_next ResultM.iter]
    (Ok (PyInt 5)) = Ok (PyInt 5).
Proof.
  apply (checked_calls_keep_result
           [ResultM.Call_unwrap; ResultM.Call_expect "m"; ResultM.Call_ok;
            ResultM.Call_unwrap_err; ResultM.Call_next ResultM.iter]).
  reflexivity.
Defined.
